(** * The text inspector tool of the GAIA example (examples/GAIA_submission/gaia.py)

    A shallow embedding of [TextInspectorTool.forward] and
    [TextInspectorTool.forward_initial_exam_mode], of the Python string
    operations they use, and of their two external collaborators (the
    markdown converter and the language model), followed by the properties
    the specification states about them. *)

From Stdlib Require Import String Ascii List ZArith NArith Bool Lia.
Import ListNotations.
Local Open Scope string_scope.

(** ** Python strings

    A string is a sequence of characters; the tool only compares, counts and
    cuts them, so one [ascii] stands for one character of the Python
    string. Lengths and indices are binary numbers, as the texts are long. *)

Module PyStr.

(** [len(s)], counted in binary so that long texts stay cheap. *)
Fixpoint len (s : string) : N :=
  match s with
  | EmptyString => 0%N
  | String _ s' => N.succ (len s')
  end.

(** The first [n] characters of [s] (all of [s] when it is shorter). *)
Fixpoint take (n : N) (s : string) : string :=
  match s with
  | EmptyString => EmptyString
  | String c s' =>
      match n with
      | N0 => EmptyString
      | _ => String c (take (N.pred n) s')
      end
  end.

(** [s] without its first [n] characters (empty when it is shorter). *)
Fixpoint drop (n : N) (s : string) : string :=
  match s with
  | EmptyString => EmptyString
  | String _ s' =>
      match n with
      | N0 => s
      | _ => drop (N.pred n) s'
      end
  end.

(** How Python turns a slice bound into an index of [0 .. len s]: a
    negative bound counts from the end, and every bound is clamped. *)
Definition clamp (s : string) (i : Z) : N :=
  let n := Z.of_N (len s) in
  Z.to_N (if (i <? 0)%Z then Z.max 0 (n + i) else Z.min i n).

(** [s[i:]] *)
Definition slice_from (s : string) (i : Z) : string := drop (clamp s i) s.

(** [s[:j]] *)
Definition slice_to (s : string) (j : Z) : string := take (clamp s j) s.

(** [x in l] for a list of strings. *)
Definition in_list (x : string) (l : list string) : bool :=
  existsb (String.eqb x) l.

(** [sub in s] for strings: [sub] occurs in [s] at some position. *)
Fixpoint contains (sub s : string) : bool :=
  String.prefix sub s
  || match s with
     | EmptyString => false
     | String _ s' => contains sub s'
     end.

(** [s.endswith(suffix)]: some tail of [s] is [suffix]. *)
Fixpoint endswith (s suffix : string) : bool :=
  String.eqb s suffix
  || match s with
     | EmptyString => false
     | String _ s' => endswith s' suffix
     end.

(** [c * n] for a one-character string [c]. *)
Definition repeat (c : ascii) (n : N) : string :=
  N.iter n (String c) EmptyString.


(** [str(x)] of an optional string: [None] prints as the word None. *)
Definition str (x : option string) : string :=
  match x with
  | Some s => s
  | None => "None"
  end.

End PyStr.

(** ** Data model *)

(** Modelled from the spec: [MessageRole] is declared in the smolagents
    package, outside this file; the spec gives the two roles a message of
    this tool can carry. *)
Inductive MessageRole : Set := SYSTEM | USER.

(** A chat message, [{"role": ..., "content": ...}]. *)
Record Message : Set := mkMessage { role : MessageRole; content : string }.

(** What [MarkdownConverter.convert] returns, as far as the tool reads it. *)
Record ConversionResult : Set :=
  mkResult { title : option string; text_content : string }.

(** What a call can raise: the tool's own [Exception(msg)], or a failure of
    one of the two collaborators, which the tool lets through.
    Modelled from the spec: the converter and the model client are not part
    of this file; the spec names their failures [ConversionError] and
    [ModelCallError]. *)
Inductive exn : Set :=
| Exception (msg : string)
| ConversionError (detail : string)
| ModelCallError (detail : string).

(** Calls made to the collaborators, in the order they happen. *)
Inductive event : Set :=
| ConvertCall (file_path : string)
| ModelCall (messages : list Message).

Definition trace := list event.

Inductive outcome (A : Type) : Type :=
| Returned (a : A)
| Raised (e : exn).
Arguments Returned {A} a.
Arguments Raised {A} e.

(** ** Computations that may raise and that log their external calls *)

Definition M (A : Type) : Type := trace -> outcome A * trace.

Definition ret {A} (a : A) : M A := fun t => (Returned a, t).

Definition raise {A} (e : exn) : M A := fun t => (Raised e, t).

Definition bind {A B} (m : M A) (k : A -> M B) : M B :=
  fun t =>
    match m t with
    | (Returned a, t') => k a t'
    | (Raised e, t') => (Raised e, t')
    end.

Notation "x <- m ;; k" := (bind m (fun x => k))
  (at level 61, m at next level, right associativity).

(** Run a call from an empty log. *)
Definition run {A} (m : M A) : outcome A * trace := m [].

(** The prompts handed to the model during a run, oldest first. *)
Fixpoint model_calls (t : trace) : list (list Message) :=
  match t with
  | [] => []
  | ModelCall msgs :: t' => msgs :: model_calls t'
  | ConvertCall _ :: t' => model_calls t'
  end.

(** The paths handed to the converter during a run, oldest first. *)
Fixpoint convert_calls (t : trace) : list string :=
  match t with
  | [] => []
  | ConvertCall p :: t' => p :: convert_calls t'
  | ModelCall _ :: t' => convert_calls t'
  end.

(** ** Module-level configuration *)

Definition USE_OPEN_MODELS : bool := false.

Definition text_limit : Z := if USE_OPEN_MODELS then 20000%Z else 70000%Z.

(** ** The tool *)

Module TextInspectorTool.

(** The message of the exception raised for an image path. In the prompts
    below, [String "010" s] is a line feed followed by [s]. *)
Definition image_error : string :=
  "Cannot use inspect_file_as_text tool with images: use visualizer instead!".

Section Tool.

(** [self.md_converter.convert]: a result, or the detail of its failure. *)
Variable md_converter : string -> string + ConversionResult.

(** [websurfer_model.__call__]: a completion, or the detail of its
    failure. *)
Variable websurfer_model : list Message -> string + string.

Definition convert (file_path : string) : M ConversionResult :=
  fun t =>
    match md_converter file_path with
    | inr result => (Returned result, (t ++ [ConvertCall file_path])%list)
    | inl detail => (Raised (ConversionError detail), (t ++ [ConvertCall file_path])%list)
    end.

Definition call_model (messages : list Message) : M string :=
  fun t =>
    match websurfer_model messages with
    | inr answer => (Returned answer, (t ++ [ModelCall messages])%list)
    | inl detail => (Raised (ModelCallError detail), (t ++ [ModelCall messages])%list)
    end.

Definition forward_initial_exam_mode
    (file_path : string) (question : option string) : M string :=
  result <- convert file_path ;;
  if PyStr.in_list (PyStr.slice_from file_path (-4)) [".png"; ".jpg"] then
    raise (Exception image_error)
  else if PyStr.contains ".zip" file_path then
    ret (text_content result)
  else
    match question with
    | None | Some EmptyString => (* not question *)
        ret (text_content result)
    | Some question =>
        let messages :=
          [ mkMessage SYSTEM
              ("Here is a file:" ++ String "010" "### "
               ++ PyStr.str (title result)
               ++ String "010" (String "010" "")
               ++ PyStr.slice_to (text_content result) text_limit);
            mkMessage USER question ] in
        call_model messages
    end.

Definition forward
    (file_path : string) (question : option string) : M string :=
  result <- convert file_path ;;
  if PyStr.in_list (PyStr.slice_from file_path (-4)) [".png"; ".jpg"] then
    raise (Exception image_error)
  else if PyStr.contains ".zip" file_path then
    ret (text_content result)
  else
    match question with
    | None | Some EmptyString => (* not question *)
        ret (text_content result)
    | Some question =>
        let messages :=
          [ mkMessage SYSTEM
              ("You will have to write a short caption for this file, then answer this question:"
               ++ question);
            mkMessage USER
              ("Here is the complete file:" ++ String "010" "### "
               ++ PyStr.str (title result)
               ++ String "010" (String "010" "")
               ++ PyStr.slice_to (text_content result) text_limit);
            mkMessage USER
              ("Now answer the question below. Use these three headings: '1. Short answer', '2. Extremely detailed answer', '3. Additional Context on the document and question asked'."
               ++ question) ] in
        call_model messages
    end.

End Tool.

End TextInspectorTool.

(** ** Calling the two methods

    The two methods are not declared alike: [forward(self, file_path,
    question: Optional[str] = None)] gives [question] a default, while
    [forward_initial_exam_mode(self, file_path, question)] requires it. *)

(** The [question] argument of a call: left out, or passed (as [None] or
    as a string). *)
Inductive argument : Set :=
| LeftOut
| Passed (question : option string).

(** What a call comes to: it is refused with a [TypeError] for the missing
    parameter before the body runs, or the body runs. *)
Inductive call_outcome : Type :=
| TypeError (missing : string)
| Ran (r : outcome string * trace).

Section Calls.

Variable md_converter : string -> string + ConversionResult.
Variable websurfer_model : list Message -> string + string.

(** [ti_tool.forward(file_path)] and [ti_tool.forward(file_path, question)] *)
Definition call_forward (file_path : string) (question : argument)
    : call_outcome :=
  match question with
  | LeftOut =>
      Ran (run (TextInspectorTool.forward md_converter websurfer_model
                  file_path None))
  | Passed question =>
      Ran (run (TextInspectorTool.forward md_converter websurfer_model
                  file_path question))
  end.

(** [ti_tool.forward_initial_exam_mode(file_path)] and
    [ti_tool.forward_initial_exam_mode(file_path, question)] *)
Definition call_forward_initial_exam_mode
    (file_path : string) (question : argument) : call_outcome :=
  match question with
  | LeftOut => TypeError "question"
  | Passed question =>
      Ran (run (TextInspectorTool.forward_initial_exam_mode
                  md_converter websurfer_model file_path question))
  end.

End Calls.

(** ** The evaluation dataset *)

Module Dataset.

Definition SET : string := "validation".

(** A row of the dataset: its columns in order, each with its value. A
    column name occurs once. Every cell is a string, as the cells of
    [file_name] are in the dataset; a row with another kind of cell there
    (on which [len] or [+] would raise) is not a value of this type. *)
Definition Row : Set := list (string * string).

(** What reading a column that the row does not have raises. *)
Inductive LookupError : Set := KeyError (key : string).

(** [row[key]] *)
Fixpoint getitem (row : Row) (key : string) : LookupError + string :=
  match row with
  | [] => inl (KeyError key)
  | (k, v) :: row' => if String.eqb k key then inr v else getitem row' key
  end.

(** [row[key] = value]: the column keeps its place when the row has it, and
    is added at the end when it has not. *)
Fixpoint setitem (row : Row) (key value : string) : Row :=
  match row with
  | [] => [(key, value)]
  | (k, v) :: row' =>
      if String.eqb k key then (k, value) :: row'
      else (k, v) :: setitem row' key value
  end.

(** [preprocess_file_paths(row)]; the column is read once for the test and
    once more for the new value, as in the source. *)
Definition preprocess_file_paths (row : Row) : LookupError + Row :=
  match getitem row "file_name" with
  | inl e => inl e
  | inr tested =>
      if (0 <? PyStr.len tested)%N then
        match getitem row "file_name" with
        | inl e => inl e
        | inr file_name =>
            inr (setitem row "file_name"
                   ("data/gaia/" ++ SET ++ "/" ++ file_name))
        end
      else inr row
  end.

End Dataset.

(** ** Vocabulary of the specification *)

(** The path names an image: it ends in [.png] or [.jpg]. *)
Definition is_image (file_path : string) : bool :=
  PyStr.endswith file_path ".png" || PyStr.endswith file_path ".jpg".

(** The path names an archive: [.zip] occurs somewhere in it. *)
Definition is_archive (file_path : string) : bool :=
  PyStr.contains ".zip" file_path.

(** A question is supplied: it is present and not empty. *)
Definition supplied (question : option string) : bool :=
  match question with
  | Some (String _ _) => true
  | _ => false
  end.

(** What the caller gets from a model call: its answer, or its failure. *)
Definition answer_of (r : string + string) : outcome string :=
  match r with
  | inr answer => Returned answer
  | inl detail => Raised (ModelCallError detail)
  end.

(** No character of [p] is [c]. *)
Fixpoint lacks (c : ascii) (p : string) : bool :=
  match p with
  | EmptyString => true
  | String d p' => negb (Ascii.eqb c d) && lacks c p'
  end.

(** The number of characters of a prompt, all messages together. *)
Definition prompt_size (messages : list Message) : N :=
  fold_right (fun m n => (PyStr.len (content m) + n)%N) 0%N messages.

(** ** Collaborators and inputs used in the examples *)

Module Fixtures.

Definition q3_report : ConversionResult :=
  mkResult (Some "Q3 Report") "Revenue grew by 4% in the third quarter.".

(** The report of the specification's scenarios: 100000 times the letter A. *)
Definition long_report : ConversionResult :=
  mkResult (Some "Q3 Report") (PyStr.repeat "A" 100000).

Definition untitled_notes : ConversionResult :=
  mkResult None "Buy milk.".

(** A converter that converts every path to [result]. *)
Definition converter_of (result : ConversionResult)
    : string -> string + ConversionResult :=
  fun _ => inr result.

(** A converter that finds no file. *)
Definition no_such_file : string -> string + ConversionResult :=
  fun file_path => inl ("No such file: " ++ file_path).

(** A model with one answer. *)
Definition canned_model : list Message -> string + string :=
  fun _ => inr "4%".

(** A model that is down. *)
Definition model_down : list Message -> string + string :=
  fun _ => inl "service unavailable".

End Fixtures.

(** ** Facts about the string operations *)

Module PyStrFacts.
Import PyStr.

Lemma len_app (a b : string) : len (a ++ b) = (len a + len b)%N.
Proof.
  induction a as [|c a IH]; simpl.
  - reflexivity.
  - rewrite IH. lia.
Qed.

Lemma app_assoc (a b c : string) : a ++ b ++ c = (a ++ b) ++ c.
Proof.
  induction a as [|x a IH]; simpl.
  - reflexivity.
  - now rewrite IH.
Qed.


Lemma take_succ (n : N) (c : ascii) (s : string) :
  take (N.succ n) (String c s) = String c (take n s).
Proof.
  simpl. rewrite N.pred_succ. destruct (N.succ n) eqn:E; [lia | reflexivity].
Qed.

Lemma drop_0 (s : string) : drop 0 s = s.
Proof. destruct s; reflexivity. Qed.

Lemma drop_succ (n : N) (c : ascii) (s : string) :
  drop (N.succ n) (String c s) = drop n s.
Proof.
  simpl. rewrite N.pred_succ. destruct (N.succ n) eqn:E; [lia | reflexivity].
Qed.

(** A string is its first [n] characters followed by the rest. *)
Lemma take_drop (n : N) (s : string) : take n s ++ drop n s = s.
Proof.
  revert n. induction s as [|c s IH]; intro n.
  - reflexivity.
  - destruct (N.eq_dec n 0) as [->|Hn].
    + reflexivity.
    + rewrite <- (N.succ_pred n Hn), take_succ, drop_succ.
      simpl. now rewrite IH.
Qed.

Lemma len_take (n : N) (s : string) : len (take n s) = N.min n (len s).
Proof.
  revert n. induction s as [|c s IH]; intro n.
  - simpl. lia.
  - destruct (N.eq_dec n 0) as [->|Hn].
    + simpl. lia.
    + rewrite <- (N.succ_pred n Hn), take_succ. simpl. rewrite IH. lia.
Qed.

Lemma take_all (n : N) (s : string) : (len s <= n)%N -> take n s = s.
Proof.
  revert n. induction s as [|c s IH]; intros n Hle.
  - reflexivity.
  - simpl in Hle.
    rewrite <- (N.succ_pred n) by lia. rewrite take_succ.
    f_equal. apply IH. lia.
Qed.

Lemma drop_app_len (p s : string) : drop (len p) (p ++ s) = s.
Proof.
  induction p as [|c p IH].
  - apply drop_0.
  - cbn [len append]. now rewrite drop_succ.
Qed.

(** *** Slices *)

Lemma clamp_nonneg (s : string) (j : Z) :
  (0 <= j)%Z -> clamp s j = N.min (Z.to_N j) (len s).
Proof.
  intro Hj. unfold clamp.
  destruct (j <? 0)%Z eqn:E; [apply Z.ltb_lt in E; lia|]. lia.
Qed.

Lemma clamp_neg (s : string) (k : N) :
  (0 < k)%N -> clamp s (- Z.of_N k) = (len s - k)%N.
Proof.
  intro Hk. unfold clamp.
  destruct (- Z.of_N k <? 0)%Z eqn:E; [|apply Z.ltb_ge in E; lia]. lia.
Qed.

(** [s[:j]] is a prefix of [s]. *)
Lemma slice_to_prefix (s : string) (j : Z) :
  exists rest, s = slice_to s j ++ rest.
Proof.
  exists (drop (clamp s j) s). unfold slice_to. now rewrite take_drop.
Qed.

(** For a limit that is not negative, [s[:j]] has [min j (len s)]
    characters. *)
Lemma len_slice_to (s : string) (j : Z) :
  (0 <= j)%Z -> len (slice_to s j) = N.min (Z.to_N j) (len s).
Proof.
  intro Hj. unfold slice_to. rewrite len_take, clamp_nonneg by assumption. lia.
Qed.

Lemma slice_to_short (s : string) (j : Z) :
  (Z.of_N (len s) <= j)%Z -> slice_to s j = s.
Proof.
  intro H. unfold slice_to. apply take_all.
  rewrite clamp_nonneg by lia. lia.
Qed.

(** [(p ++ suffix)[-len(suffix):]] is [suffix]. *)
Lemma slice_from_suffix (p suffix : string) :
  (0 < len suffix)%N ->
  slice_from (p ++ suffix) (- Z.of_N (len suffix)) = suffix.
Proof.
  intro H. unfold slice_from. rewrite clamp_neg by assumption.
  rewrite len_app. replace (len p + len suffix - len suffix)%N with (len p) by lia.
  apply drop_app_len.
Qed.

(** [s[i:]] is a suffix of [s]. *)
Lemma slice_from_is_suffix (s : string) (i : Z) :
  exists p, s = p ++ slice_from s i.
Proof.
  exists (take (clamp s i) s). unfold slice_from. now rewrite take_drop.
Qed.

(** *** [endswith] and [contains] *)

Lemma endswith_spec (s suffix : string) :
  endswith s suffix = true <-> exists p, s = p ++ suffix.
Proof.
  split.
  - induction s as [|c s IH]; cbn [endswith]; intro H.
    + rewrite orb_false_r in H. apply String.eqb_eq in H. now exists "".
    + apply orb_true_iff in H. destruct H as [H|H].
      * apply String.eqb_eq in H. now exists "".
      * destruct (IH H) as [p ->]. now exists (String c p).
  - intros [p ->]. induction p as [|c p IH].
    + destruct suffix; simpl; rewrite ?Ascii.eqb_refl, ?String.eqb_refl; reflexivity.
    + cbn [append endswith]. rewrite IH. apply orb_true_r.
Qed.

Lemma prefix_spec (a s : string) :
  String.prefix a s = true <-> exists b, s = a ++ b.
Proof.
  revert s. induction a as [|x a IH]; intros [|y s]; simpl.
  - split; [now exists "" | reflexivity].
  - split; [now exists (String y s) | reflexivity].
  - split; [discriminate | intros [b H]; discriminate].
  - destruct (ascii_dec x y) as [->|Hxy].
    + rewrite IH. split; intros [b H]; exists b; congruence.
    + split; [discriminate | intros [b H]; congruence].
Qed.

Lemma contains_spec (sub s : string) :
  contains sub s = true <-> exists a b, s = a ++ sub ++ b.
Proof.
  split.
  - induction s as [|c s IH]; cbn [contains]; intro H.
    + rewrite orb_false_r in H. apply (prefix_spec sub "") in H.
      destruct H as [b H]. now exists "", b.
    + apply orb_true_iff in H. destruct H as [H|H].
      * apply (prefix_spec sub (String c s)) in H.
        destruct H as [b H]. now exists "", b.
      * destruct (IH H) as (a & b & ->). now exists (String c a), b.
  - intros (a & b & ->). induction a as [|c a IH].
    + assert (H : String.prefix sub (sub ++ b) = true)
        by (apply prefix_spec; now exists b).
      simpl append. destruct (sub ++ b); simpl; simpl in H; rewrite H; reflexivity.
    + cbn [append contains]. rewrite IH. apply orb_true_r.
Qed.

(** *** Repetition and counting *)

Lemma repeat_succ (c : ascii) (n : N) :
  repeat c (N.succ n) = String c (repeat c n).
Proof. unfold repeat. now rewrite N.iter_succ. Qed.

Lemma len_repeat (c : ascii) (n : N) : len (repeat c n) = n.
Proof.
  induction n as [|n IH] using N.peano_ind.
  - reflexivity.
  - rewrite repeat_succ. simpl. now rewrite IH.
Qed.




(** *** The image test of the tool is a suffix test *)

Lemma slice4_eqb_endswith (file_path suffix : string) :
  len suffix = 4%N ->
  String.eqb (slice_from file_path (-4)) suffix = endswith file_path suffix.
Proof.
  intro Hlen. apply eq_true_iff_eq. rewrite String.eqb_eq, endswith_spec. split.
  - intros <-. apply slice_from_is_suffix.
  - intros [p ->].
    replace (-4)%Z with (- Z.of_N (len suffix))%Z by (rewrite Hlen; reflexivity).
    apply slice_from_suffix. lia.
Qed.

Lemma image_test (file_path : string) :
  in_list (slice_from file_path (-4)) [".png"; ".jpg"]
  = endswith file_path ".png" || endswith file_path ".jpg".
Proof.
  unfold in_list. cbn [existsb].
  rewrite !slice4_eqb_endswith by reflexivity.
  now rewrite orb_false_r.
Qed.

(** A path ending in [.jpeg] or [.gif] does not pass the test: its last
    four characters are [jpeg] or [.gif]. *)
Lemma image_test_jpeg_gif (file_path : string) :
  endswith file_path ".jpeg" = true \/ endswith file_path ".gif" = true ->
  in_list (slice_from file_path (-4)) [".png"; ".jpg"] = false.
Proof.
  intros [H|H]; apply endswith_spec in H; destruct H as [p ->].
  - change ".jpeg" with ("." ++ "jpeg"). rewrite app_assoc.
    change (-4)%Z with (- Z.of_N (len "jpeg"))%Z.
    rewrite slice_from_suffix by reflexivity. reflexivity.
  - change (-4)%Z with (- Z.of_N (len ".gif"))%Z.
    rewrite slice_from_suffix by reflexivity. reflexivity.
Qed.

(** *** Truncation *)

Lemma take_min (n : N) (s : string) : take (N.min n (len s)) s = take n s.
Proof.
  destruct (N.le_gt_cases n (len s)) as [H|H].
  - now rewrite N.min_l.
  - rewrite N.min_r by lia. rewrite !take_all by lia. reflexivity.
Qed.

(** For a limit that is not negative, [s[:j]] is the first [j] characters. *)
Lemma slice_to_take (s : string) (j : Z) :
  (0 <= j)%Z -> slice_to s j = take (Z.to_N j) s.
Proof.
  intro Hj. unfold slice_to. rewrite clamp_nonneg by assumption. apply take_min.
Qed.


Lemma text_limit_nonneg : (0 <= text_limit)%Z.
Proof. unfold text_limit, USE_OPEN_MODELS. lia. Qed.

End PyStrFacts.

(** ** The paths through the two entry points *)

Ltac enter :=
  unfold run, TextInspectorTool.forward,
    TextInspectorTool.forward_initial_exam_mode,
    bind, TextInspectorTool.convert.

Ltac leave :=
  unfold TextInspectorTool.call_model, ret, raise; cbn [app].

Section Paths.

Variable md_converter : string -> string + ConversionResult.
Variable websurfer_model : list Message -> string + string.

Local Abbreviation forward :=
  (TextInspectorTool.forward md_converter websurfer_model).
Local Abbreviation forward_initial_exam_mode :=
  (TextInspectorTool.forward_initial_exam_mode md_converter websurfer_model).

Lemma image_test_is_image (file_path : string) :
  PyStr.in_list (PyStr.slice_from file_path (-4)) [".png"; ".jpg"]
  = is_image file_path.
Proof. apply PyStrFacts.image_test. Qed.

(** A failure of the converter is what the caller gets. *)
Lemma run_conversion_failed (file_path : string) (question : option string)
    (detail : string) :
  md_converter file_path = inl detail ->
  run (forward file_path question)
    = (Raised (ConversionError detail), [ConvertCall file_path])
  /\ run (forward_initial_exam_mode file_path question)
    = (Raised (ConversionError detail), [ConvertCall file_path]).
Proof. intro H. enter. rewrite H. now leave. Qed.

(** After a conversion, an image path is rejected. *)
Lemma run_image (file_path : string) (question : option string)
    (result : ConversionResult) :
  md_converter file_path = inr result ->
  is_image file_path = true ->
  run (forward file_path question)
    = (Raised (Exception TextInspectorTool.image_error), [ConvertCall file_path])
  /\ run (forward_initial_exam_mode file_path question)
    = (Raised (Exception TextInspectorTool.image_error), [ConvertCall file_path]).
Proof.
  intros H Himg. enter. rewrite H, image_test_is_image, Himg. now leave.
Qed.

(** After a conversion, an archive path that is not an image path gets
    the converted text. *)
Lemma run_archive (file_path : string) (question : option string)
    (result : ConversionResult) :
  md_converter file_path = inr result ->
  is_image file_path = false ->
  is_archive file_path = true ->
  run (forward file_path question)
    = (Returned (text_content result), [ConvertCall file_path])
  /\ run (forward_initial_exam_mode file_path question)
    = (Returned (text_content result), [ConvertCall file_path]).
Proof.
  intros H Himg Hzip. unfold is_archive in Hzip.
  enter. rewrite H, image_test_is_image, Himg, Hzip. now leave.
Qed.

(** After a conversion, a call without a question on a path that is not
    an image path gets the converted text. *)
Lemma run_no_question (file_path : string) (question : option string)
    (result : ConversionResult) :
  md_converter file_path = inr result ->
  is_image file_path = false ->
  supplied question = false ->
  run (forward file_path question)
    = (Returned (text_content result), [ConvertCall file_path])
  /\ run (forward_initial_exam_mode file_path question)
    = (Returned (text_content result), [ConvertCall file_path]).
Proof.
  intros H Himg Hq.
  enter. rewrite H, image_test_is_image, Himg.
  destruct (PyStr.contains ".zip" file_path); [now leave|].
  destruct question as [[|c q]|]; try discriminate; now leave.
Qed.

(** The prompt of [forward]. *)
Lemma run_forward_question (file_path question : string)
    (result : ConversionResult) :
  md_converter file_path = inr result ->
  is_image file_path = false ->
  is_archive file_path = false ->
  question <> "" ->
  let messages :=
    [ mkMessage SYSTEM
        ("You will have to write a short caption for this file, then answer this question:"
         ++ question);
      mkMessage USER
        ("Here is the complete file:" ++ String "010" "### "
         ++ PyStr.str (title result)
         ++ String "010" (String "010" "")
         ++ PyStr.slice_to (text_content result) text_limit);
      mkMessage USER
        ("Now answer the question below. Use these three headings: '1. Short answer', '2. Extremely detailed answer', '3. Additional Context on the document and question asked'."
         ++ question) ] in
  run (forward file_path (Some question))
    = (answer_of (websurfer_model messages),
       [ConvertCall file_path; ModelCall messages]).
Proof.
  intros H Himg Hzip Hq messages. unfold is_archive in Hzip.
  enter. rewrite H, image_test_is_image, Himg, Hzip.
  destruct question as [|c q]; [congruence|]. leave.
  fold messages. now destruct (websurfer_model messages).
Qed.

(** The prompt of [forward_initial_exam_mode]. *)
Lemma run_exam_question (file_path question : string)
    (result : ConversionResult) :
  md_converter file_path = inr result ->
  is_image file_path = false ->
  is_archive file_path = false ->
  question <> "" ->
  let messages :=
    [ mkMessage SYSTEM
        ("Here is a file:" ++ String "010" "### "
         ++ PyStr.str (title result)
         ++ String "010" (String "010" "")
         ++ PyStr.slice_to (text_content result) text_limit);
      mkMessage USER question ] in
  run (forward_initial_exam_mode file_path (Some question))
    = (answer_of (websurfer_model messages),
       [ConvertCall file_path; ModelCall messages]).
Proof.
  intros H Himg Hzip Hq messages. unfold is_archive in Hzip.
  enter. rewrite H, image_test_is_image, Himg, Hzip.
  destruct question as [|c q]; [congruence|]. leave.
  fold messages. now destruct (websurfer_model messages).
Qed.


End Paths.

(** ** The properties of the specification *)

Section Claims.

Variable md_converter : string -> string + ConversionResult.
Variable websurfer_model : list Message -> string + string.

Local Abbreviation forward :=
  (TextInspectorTool.forward md_converter websurfer_model).
Local Abbreviation forward_initial_exam_mode :=
  (TextInspectorTool.forward_initial_exam_mode md_converter websurfer_model).

(** C1 (as amended). For every file_path ending in [.png] or [.jpg] and
    every question, present or absent, both entry points fail rather than
    return a string: with the image-rejection exception when the conversion
    succeeded, and with the failure of the conversion when it did not. *)
Theorem image_path_fails (file_path : string) (question : option string) :
  is_image file_path = true ->
  (forall result, md_converter file_path = inr result ->
     run (forward file_path question)
       = (Raised (Exception TextInspectorTool.image_error),
          [ConvertCall file_path])
     /\ run (forward_initial_exam_mode file_path question)
       = (Raised (Exception TextInspectorTool.image_error),
          [ConvertCall file_path]))
  /\ (forall detail, md_converter file_path = inl detail ->
     run (forward file_path question)
       = (Raised (ConversionError detail), [ConvertCall file_path])
     /\ run (forward_initial_exam_mode file_path question)
       = (Raised (ConversionError detail), [ConvertCall file_path])).
Proof.
  intro Himg. split.
  - intros result H. now apply run_image with (result := result).
  - intros detail H. now apply run_conversion_failed.
Qed.

(** C7 (as amended). For every file_path ending in [.png] and every
    question, both entry points fail after the conversion call and without
    any call of the model. The failure is the image-rejection exception
    whenever the conversion succeeded; when the conversion failed, its
    failure is what is raised. *)
Theorem png_fails_before_model (file_path : string) (question : option string) :
  PyStr.endswith file_path ".png" = true ->
  (exists e,
      run (forward file_path question) = (Raised e, [ConvertCall file_path])
      /\ run (forward_initial_exam_mode file_path question)
         = (Raised e, [ConvertCall file_path])
      /\ (forall result, md_converter file_path = inr result ->
          e = Exception TextInspectorTool.image_error)
      /\ (forall detail, md_converter file_path = inl detail ->
          e = ConversionError detail))
  /\ model_calls (snd (run (forward file_path question))) = []
  /\ model_calls (snd (run (forward_initial_exam_mode file_path question))) = [].
Proof.
  intro Hpng.
  assert (Himg : is_image file_path = true)
    by (unfold is_image; now rewrite Hpng).
  destruct (md_converter file_path) as [detail|result] eqn:H.
  - destruct (run_conversion_failed md_converter websurfer_model
                file_path question detail H) as [E1 E2].
    rewrite E1, E2. split; [|now split].
    exists (ConversionError detail).
    split; [reflexivity|]. split; [reflexivity|]. split.
    + intros r Hr. discriminate.
    + intros d Hd. congruence.
  - destruct (run_image md_converter websurfer_model
                file_path question result H Himg) as [E1 E2].
    rewrite E1, E2. split; [|now split].
    exists (Exception TextInspectorTool.image_error).
    split; [reflexivity|]. split; [reflexivity|]. split.
    + intros r Hr. reflexivity.
    + intros d Hd. discriminate.
Qed.

(** C9. The image test comes before the archive test in both entry points:
    for every file_path that contains [.zip] and ends in [.png] or [.jpg],
    a call whose conversion succeeded raises the image-rejection exception
    and does not return the converted text. *)
Theorem image_test_precedes_archive_test
    (file_path : string) (question : option string) (result : ConversionResult) :
  is_archive file_path = true ->
  is_image file_path = true ->
  md_converter file_path = inr result ->
  (run (forward file_path question)
     = (Raised (Exception TextInspectorTool.image_error), [ConvertCall file_path])
   /\ fst (run (forward file_path question)) <> Returned (text_content result))
  /\ (run (forward_initial_exam_mode file_path question)
     = (Raised (Exception TextInspectorTool.image_error), [ConvertCall file_path])
   /\ fst (run (forward_initial_exam_mode file_path question))
      <> Returned (text_content result)).
Proof.
  intros _ Himg H.
  destruct (run_image md_converter websurfer_model
              file_path question result H Himg) as [E1 E2].
  rewrite E1, E2. repeat split; discriminate.
Qed.

(** No path that stops before the question is looked at calls the model. *)
Lemma quiet_without_model_path (file_path : string) (question : option string) :
  is_archive file_path = true \/ supplied question = false ->
  model_calls (snd (run (forward file_path question))) = []
  /\ model_calls (snd (run (forward_initial_exam_mode file_path question))) = [].
Proof.
  intro Hquiet.
  destruct (md_converter file_path) as [detail|result] eqn:H.
  - destruct (run_conversion_failed md_converter websurfer_model
                file_path question detail H) as [E1 E2].
    now rewrite E1, E2.
  - destruct (is_image file_path) eqn:Himg.
    + destruct (run_image md_converter websurfer_model
                  file_path question result H Himg) as [E1 E2].
      now rewrite E1, E2.
    + destruct Hquiet as [Hzip|Hq].
      * destruct (run_archive md_converter websurfer_model
                    file_path question result H Himg Hzip) as [E1 E2].
        now rewrite E1, E2.
      * destruct (run_no_question md_converter websurfer_model
                    file_path question result H Himg Hq) as [E1 E2].
        now rewrite E1, E2.
Qed.

(** C3 (as amended). For every file_path that contains [.zip] anywhere, the
    model is never called, whether a question was supplied or not; when in
    addition the path does not end in [.png] or [.jpg] and the conversion
    succeeded, both entry points return exactly the text_content of the
    conversion result. *)
Theorem archive_returns_text (file_path : string) (question : option string) :
  is_archive file_path = true ->
  (model_calls (snd (run (forward file_path question))) = []
   /\ model_calls (snd (run (forward_initial_exam_mode file_path question))) = [])
  /\ (forall result,
        md_converter file_path = inr result ->
        is_image file_path = false ->
        run (forward file_path question)
          = (Returned (text_content result), [ConvertCall file_path])
        /\ run (forward_initial_exam_mode file_path question)
          = (Returned (text_content result), [ConvertCall file_path])).
Proof.
  intro Hzip. split.
  - apply quiet_without_model_path. now left.
  - intros result H Himg. now apply run_archive.
Qed.

(** C4 (as amended). For every input whose question is absent or empty, the
    model is never called; when in addition the path does not end in [.png]
    or [.jpg] and the conversion succeeded, both entry points return exactly
    the text_content of the conversion result, whatever its length: the
    100000-character text of the scenario comes back whole although
    [text_limit] is 70000. *)
Theorem no_question_returns_text (file_path : string) (question : option string) :
  supplied question = false ->
  (model_calls (snd (run (forward file_path question))) = []
   /\ model_calls (snd (run (forward_initial_exam_mode file_path question))) = [])
  /\ (forall result,
        md_converter file_path = inr result ->
        is_image file_path = false ->
        run (forward file_path question)
          = (Returned (text_content result), [ConvertCall file_path])
        /\ run (forward_initial_exam_mode file_path question)
          = (Returned (text_content result), [ConvertCall file_path]))
  /\ (text_limit = 70000%Z
      /\ PyStr.len (text_content Fixtures.long_report) = 100000%N
      /\ run (TextInspectorTool.forward
                (Fixtures.converter_of Fixtures.long_report) websurfer_model
                "report.pdf" question)
         = (Returned (PyStr.repeat "A" 100000), [ConvertCall "report.pdf"])
      /\ run (TextInspectorTool.forward_initial_exam_mode
                (Fixtures.converter_of Fixtures.long_report) websurfer_model
                "report.pdf" question)
         = (Returned (PyStr.repeat "A" 100000), [ConvertCall "report.pdf"])).
Proof.
  intro Hq. split; [|split].
  - apply quiet_without_model_path. now right.
  - intros result H Himg. now apply run_no_question.
  - split; [reflexivity|]. split; [apply PyStrFacts.len_repeat|].
    apply (run_no_question (Fixtures.converter_of Fixtures.long_report)
             websurfer_model "report.pdf" question Fixtures.long_report);
      [reflexivity | reflexivity | assumption].
Qed.

(** C8 (as amended). The image test looks at the last four characters only
    and knows [.png] and [.jpg] only, so for every file_path ending in
    [.jpeg] or [.gif] it does not fire: the path counts as no image, the
    image-rejection exception is never raised, and after a successful
    conversion the call goes on as for any other file: it returns the
    text_content when the path contains [.zip] or no question is supplied,
    and it calls the model when a question is supplied and the path does
    not contain [.zip]. *)
Theorem jpeg_gif_not_rejected (file_path : string) (question : option string) :
  PyStr.endswith file_path ".jpeg" = true \/ PyStr.endswith file_path ".gif" = true ->
  PyStr.in_list (PyStr.slice_from file_path (-4)) [".png"; ".jpg"] = false
  /\ is_image file_path = false
  /\ fst (run (forward file_path question))
     <> Raised (Exception TextInspectorTool.image_error)
  /\ fst (run (forward_initial_exam_mode file_path question))
     <> Raised (Exception TextInspectorTool.image_error)
  /\ (forall result,
        md_converter file_path = inr result ->
        (is_archive file_path = true \/ supplied question = false ->
         run (forward file_path question)
           = (Returned (text_content result), [ConvertCall file_path])
         /\ run (forward_initial_exam_mode file_path question)
           = (Returned (text_content result), [ConvertCall file_path]))
        /\ (is_archive file_path = false -> supplied question = true ->
            exists standard exam,
              run (forward file_path question)
                = (answer_of (websurfer_model standard),
                   [ConvertCall file_path; ModelCall standard])
              /\ run (forward_initial_exam_mode file_path question)
                = (answer_of (websurfer_model exam),
                   [ConvertCall file_path; ModelCall exam]))).
Proof.
  intro Hext.
  pose proof (PyStrFacts.image_test_jpeg_gif file_path Hext) as Htest.
  assert (Himg : is_image file_path = false)
    by (now rewrite <- image_test_is_image).
  assert (Hpaths : forall result,
        md_converter file_path = inr result ->
        (is_archive file_path = true \/ supplied question = false ->
         run (forward file_path question)
           = (Returned (text_content result), [ConvertCall file_path])
         /\ run (forward_initial_exam_mode file_path question)
           = (Returned (text_content result), [ConvertCall file_path]))
        /\ (is_archive file_path = false -> supplied question = true ->
            exists standard exam,
              run (forward file_path question)
                = (answer_of (websurfer_model standard),
                   [ConvertCall file_path; ModelCall standard])
              /\ run (forward_initial_exam_mode file_path question)
                = (answer_of (websurfer_model exam),
                   [ConvertCall file_path; ModelCall exam]))).
  { intros result H. split.
    - intros [Hzip|Hq].
      + now apply run_archive.
      + now apply run_no_question.
    - intros Hzip Hq. destruct question as [[|c q]|]; try discriminate.
      assert (Hne : String c q <> "") by discriminate.
      eexists. eexists. split.
      + exact (run_forward_question md_converter websurfer_model
                 file_path (String c q) result H Himg Hzip Hne).
      + exact (run_exam_question md_converter websurfer_model
                 file_path (String c q) result H Himg Hzip Hne). }
  split; [assumption|]. split; [assumption|].
  split; [|split; [|exact Hpaths]].
  - destruct (md_converter file_path) as [detail|result] eqn:H.
    + destruct (run_conversion_failed md_converter websurfer_model
                  file_path question detail H) as [E _].
      rewrite E. discriminate.
    + destruct (Hpaths result eq_refl) as [Hret Hask].
      destruct (is_archive file_path) eqn:Hzip.
      * destruct (Hret (or_introl eq_refl)) as [E _]. rewrite E. discriminate.
      * destruct (supplied question) eqn:Hq.
        -- destruct (Hask eq_refl eq_refl) as (m1 & m2 & E & _). rewrite E.
           cbn [fst]. destruct (websurfer_model m1); discriminate.
        -- destruct (Hret (or_intror eq_refl)) as [E _]. rewrite E. discriminate.
  - destruct (md_converter file_path) as [detail|result] eqn:H.
    + destruct (run_conversion_failed md_converter websurfer_model
                  file_path question detail H) as [_ E].
      rewrite E. discriminate.
    + destruct (Hpaths result eq_refl) as [Hret Hask].
      destruct (is_archive file_path) eqn:Hzip.
      * destruct (Hret (or_introl eq_refl)) as [_ E]. rewrite E. discriminate.
      * destruct (supplied question) eqn:Hq.
        -- destruct (Hask eq_refl eq_refl) as (m1 & m2 & _ & E). rewrite E.
           cbn [fst]. destruct (websurfer_model m2); discriminate.
        -- destruct (Hret (or_intror eq_refl)) as [_ E]. rewrite E. discriminate.
Qed.

(** Every run is of one of two kinds: it stops after the conversion call,
    with the same outcome at both entry points, or it ends in one call of
    the model at both entry points. *)
Lemma run_cases (file_path : string) (question : option string) :
  (exists out,
      run (forward file_path question) = (out, [ConvertCall file_path])
      /\ run (forward_initial_exam_mode file_path question)
         = (out, [ConvertCall file_path]))
  \/ (exists standard exam,
      run (forward file_path question)
        = (answer_of (websurfer_model standard),
           [ConvertCall file_path; ModelCall standard])
      /\ run (forward_initial_exam_mode file_path question)
        = (answer_of (websurfer_model exam),
           [ConvertCall file_path; ModelCall exam])).
Proof.
  destruct (md_converter file_path) as [detail|result] eqn:H.
  { left. eexists.
    exact (run_conversion_failed md_converter websurfer_model
             file_path question detail H). }
  destruct (is_image file_path) eqn:Himg.
  { left. eexists.
    exact (run_image md_converter websurfer_model
             file_path question result H Himg). }
  destruct (is_archive file_path) eqn:Hzip.
  { left. eexists.
    exact (run_archive md_converter websurfer_model
             file_path question result H Himg Hzip). }
  destruct (supplied question) eqn:Hq.
  - right. destruct question as [[|c q]|]; try discriminate.
    assert (Hne : String c q <> "") by discriminate.
    eexists. eexists. split.
    + exact (run_forward_question md_converter websurfer_model
               file_path (String c q) result H Himg Hzip Hne).
    + exact (run_exam_question md_converter websurfer_model
               file_path (String c q) result H Himg Hzip Hne).
  - left. eexists.
    exact (run_no_question md_converter websurfer_model
             file_path question result H Himg Hq).
Qed.

(** C6 (as amended). Called with a file_path and a question (which may be
    [None]), the two entry points call the converter the same way, reach
    the model on the same inputs, and are indistinguishable whenever the
    model is not reached: same outcome (the same exception or the same
    returned text) and same calls. When the model is reached they differ in
    the prompt only. Their signatures differ: a call that leaves the
    question out runs [forward] with the question [None], and is refused
    with a [TypeError] by [forward_initial_exam_mode]. *)
Theorem entry_points_agree (file_path : string) (question : option string) :
  (convert_calls (snd (run (forward file_path question))) = [file_path]
   /\ convert_calls (snd (run (forward_initial_exam_mode file_path question)))
      = [file_path])
  /\ (model_calls (snd (run (forward file_path question))) = []
      <-> model_calls (snd (run (forward_initial_exam_mode file_path question)))
          = [])
  /\ (model_calls (snd (run (forward file_path question))) = [] ->
      run (forward file_path question)
      = run (forward_initial_exam_mode file_path question))
  /\ (model_calls (snd (run (forward file_path question))) <> [] ->
      exists standard exam,
        run (forward file_path question)
          = (answer_of (websurfer_model standard),
             [ConvertCall file_path; ModelCall standard])
        /\ run (forward_initial_exam_mode file_path question)
          = (answer_of (websurfer_model exam),
             [ConvertCall file_path; ModelCall exam]))
  /\ (model_calls (snd (run (forward file_path question))) = [] ->
      call_forward md_converter websurfer_model file_path (Passed question)
      = call_forward_initial_exam_mode md_converter websurfer_model
          file_path (Passed question))
  /\ call_forward md_converter websurfer_model file_path LeftOut
     = call_forward md_converter websurfer_model file_path (Passed None)
  /\ call_forward_initial_exam_mode md_converter websurfer_model
       file_path LeftOut
     = TypeError "question"
  /\ call_forward md_converter websurfer_model file_path LeftOut
     <> call_forward_initial_exam_mode md_converter websurfer_model
          file_path LeftOut.
Proof.
  assert (Hsig :
    call_forward md_converter websurfer_model file_path LeftOut
    = call_forward md_converter websurfer_model file_path (Passed None)
    /\ call_forward_initial_exam_mode md_converter websurfer_model
         file_path LeftOut
       = TypeError "question"
    /\ call_forward md_converter websurfer_model file_path LeftOut
       <> call_forward_initial_exam_mode md_converter websurfer_model
            file_path LeftOut).
  { split; [reflexivity|]. split; [reflexivity|]. discriminate. }
  unfold call_forward at 1, call_forward_initial_exam_mode at 1.
  destruct (run_cases file_path question)
    as [(out & E1 & E2)|(standard & exam & E1 & E2)]; rewrite E1, E2; cbn.
  - split; [now split|]. split; [tauto|]. split; [reflexivity|].
    split; [congruence|]. split; [reflexivity|]. exact Hsig.
  - split; [now split|]. split; [split; discriminate|].
    split; [discriminate|]. split; [intros _; now exists standard, exam|].
    split; [discriminate|]. exact Hsig.
Qed.


(** C5. For every input where a question is supplied and the file_path is
    neither an image nor an archive, one message of the prompt of either
    entry point is a fixed header, the title of the conversion result, a
    blank line and a segment of text_content. The segment is the first
    [text_limit] characters of text_content: a prefix of it, as long as the
    limit allows and all of it when it is shorter. Nothing of text_content
    beyond that prefix reaches the model: two conversion results with the
    same title and the same first [text_limit] characters give the same
    prompt. *)
Theorem prompt_carries_title_and_prefix
    (file_path question : string) (result : ConversionResult) :
  md_converter file_path = inr result ->
  is_image file_path = false ->
  is_archive file_path = false ->
  question <> "" ->
  let segment := PyStr.take (Z.to_N text_limit) (text_content result) in
  ((exists rest, text_content result = segment ++ rest)
   /\ PyStr.len segment
      = N.min (Z.to_N text_limit) (PyStr.len (text_content result))
   /\ ((PyStr.len (text_content result) <= Z.to_N text_limit)%N ->
       segment = text_content result))
  /\ (exists sys ask,
        model_calls (snd (run (forward file_path (Some question))))
        = [[ sys;
             mkMessage USER
               ("Here is the complete file:" ++ String "010" "### "
                ++ PyStr.str (title result)
                ++ String "010" (String "010" "")
                ++ segment);
             ask ]])
  /\ (exists ask,
        model_calls (snd (run (forward_initial_exam_mode file_path (Some question))))
        = [[ mkMessage SYSTEM
               ("Here is a file:" ++ String "010" "### "
                ++ PyStr.str (title result)
                ++ String "010" (String "010" "")
                ++ segment);
             ask ]])
  /\ (forall (other_converter : string -> string + ConversionResult)
             (other : ConversionResult),
        other_converter file_path = inr other ->
        title other = title result ->
        PyStr.take (Z.to_N text_limit) (text_content other) = segment ->
        model_calls
          (snd (run (TextInspectorTool.forward other_converter websurfer_model
                       file_path (Some question))))
        = model_calls (snd (run (forward file_path (Some question))))
        /\ model_calls
          (snd (run (TextInspectorTool.forward_initial_exam_mode
                       other_converter websurfer_model
                       file_path (Some question))))
        = model_calls
            (snd (run (forward_initial_exam_mode file_path (Some question))))).
Proof.
  intros H Himg Hzip Hq segment.
  pose proof PyStrFacts.text_limit_nonneg as Hlim.
  assert (Hseg : PyStr.slice_to (text_content result) text_limit = segment)
    by (now apply PyStrFacts.slice_to_take).
  rewrite (run_exam_question md_converter websurfer_model
             file_path question result H Himg Hzip Hq).
  rewrite (run_forward_question md_converter websurfer_model
             file_path question result H Himg Hzip Hq).
  rewrite Hseg. cbn [snd model_calls].
  split; [split; [|split]|split; [|split]].
  - exists (PyStr.drop (Z.to_N text_limit) (text_content result)).
    unfold segment. now rewrite PyStrFacts.take_drop.
  - apply PyStrFacts.len_take.
  - apply PyStrFacts.take_all.
  - eexists. eexists. reflexivity.
  - eexists. reflexivity.
  - intros other_converter other Ho Ht Hs.
    rewrite (run_exam_question other_converter websurfer_model
               file_path question other Ho Himg Hzip Hq).
    rewrite (run_forward_question other_converter websurfer_model
               file_path question other Ho Himg Hzip Hq).
    rewrite (PyStrFacts.slice_to_take (text_content other) text_limit Hlim).
    rewrite Hs, Ht. split; reflexivity.
Qed.

(** C10. When the conversion result has no title and a question is supplied
    for a file_path that is neither an image nor an archive, building the
    prompt does not fail: the title is printed with [str], so the message
    carrying the file has the four characters None where the title goes,
    and the caller gets what the model answers. *)
Theorem missing_title_prints_None
    (file_path question : string) (result : ConversionResult) :
  md_converter file_path = inr result ->
  title result = None ->
  is_image file_path = false ->
  is_archive file_path = false ->
  question <> "" ->
  (PyStr.str (title result) = "None" /\ PyStr.len "None" = 4%N)
  /\ (exists sys ask,
        let file :=
          mkMessage USER
            ("Here is the complete file:" ++ String "010" "### "
             ++ "None"
             ++ String "010" (String "010" "")
             ++ PyStr.slice_to (text_content result) text_limit) in
        run (forward file_path (Some question))
        = (answer_of (websurfer_model [sys; file; ask]),
           [ConvertCall file_path; ModelCall [sys; file; ask]]))
  /\ (exists ask,
        let file :=
          mkMessage SYSTEM
            ("Here is a file:" ++ String "010" "### "
             ++ "None"
             ++ String "010" (String "010" "")
             ++ PyStr.slice_to (text_content result) text_limit) in
        run (forward_initial_exam_mode file_path (Some question))
        = (answer_of (websurfer_model [file; ask]),
           [ConvertCall file_path; ModelCall [file; ask]])).
Proof.
  intros H Ht Himg Hzip Hq.
  rewrite (run_exam_question md_converter websurfer_model
             file_path question result H Himg Hzip Hq).
  rewrite (run_forward_question md_converter websurfer_model
             file_path question result H Himg Hzip Hq).
  rewrite Ht. cbn [PyStr.str].
  split; [now split|]. split.
  - eexists. eexists. reflexivity.
  - eexists. reflexivity.
Qed.

End Claims.

(** ** The properties at concrete inputs *)

Module Examples.
Import Fixtures.

Local Abbreviation forward := TextInspectorTool.forward.
Local Abbreviation forward_initial_exam_mode :=
  TextInspectorTool.forward_initial_exam_mode.
Local Abbreviation image_error := TextInspectorTool.image_error.

(** [photo.png] with a question, after a conversion that succeeded. *)
Lemma image_path_fails_photo :
  is_image "photo.png" = true
  /\ run (forward (converter_of q3_report) canned_model
            "photo.png" (Some "What is shown?"))
     = (Raised (Exception image_error), [ConvertCall "photo.png"])
  /\ run (forward_initial_exam_mode no_such_file canned_model
            "photo.png" (Some "What is shown?"))
     = (Raised (ConversionError "No such file: photo.png"),
        [ConvertCall "photo.png"]).
Proof.
  split; [reflexivity|]. split.
  - exact (proj1 (proj1 (image_path_fails (converter_of q3_report) canned_model
                           "photo.png" (Some "What is shown?") eq_refl)
                    q3_report eq_refl)).
  - exact (proj2 (proj2 (image_path_fails no_such_file canned_model
                           "photo.png" (Some "What is shown?") eq_refl)
                    "No such file: photo.png" eq_refl)).
Defined.

(** C1 as stated fails: when the conversion of [chart.jpg] fails, that
    failure is what both entry points raise, not the image rejection. *)
Lemma image_rejection_after_failed_conversion :
  is_image "chart.jpg" = true
  /\ run (forward no_such_file canned_model "chart.jpg" None)
     = (Raised (ConversionError "No such file: chart.jpg"),
        [ConvertCall "chart.jpg"])
  /\ run (forward_initial_exam_mode no_such_file canned_model "chart.jpg" None)
     = (Raised (ConversionError "No such file: chart.jpg"),
        [ConvertCall "chart.jpg"])
  /\ fst (run (forward no_such_file canned_model "chart.jpg" None))
     <> Raised (Exception image_error)
  /\ fst (run (forward_initial_exam_mode no_such_file canned_model "chart.jpg" None))
     <> Raised (Exception image_error).
Proof.
  split; [reflexivity|]. split; [reflexivity|]. split; [reflexivity|].
  split; discriminate.
Qed.

(** [photo.png]: no call of the model, with a model that would answer. *)
Lemma png_fails_before_model_photo :
  PyStr.endswith "photo.png" ".png" = true
  /\ (exists e,
        run (forward (converter_of q3_report) canned_model
               "photo.png" (Some "What is shown?"))
        = (Raised e, [ConvertCall "photo.png"])
        /\ e = Exception image_error)
  /\ model_calls
       (snd (run (forward (converter_of q3_report) canned_model
                    "photo.png" (Some "What is shown?")))) = []
  /\ model_calls
       (snd (run (forward_initial_exam_mode (converter_of q3_report) canned_model
                    "photo.png" (Some "What is shown?")))) = [].
Proof.
  split; [reflexivity|].
  destruct (png_fails_before_model (converter_of q3_report) canned_model
              "photo.png" (Some "What is shown?") eq_refl)
    as [(e & E1 & _ & Hok & _) Hquiet].
  split; [|exact Hquiet].
  exists e. split; [exact E1|]. exact (Hok q3_report eq_refl).
Defined.

(** C7 as stated fails: [photo.png] with a question and a conversion that
    fails raises the failure of the conversion, not the image rejection. *)
Lemma png_with_failed_conversion :
  PyStr.endswith "photo.png" ".png" = true
  /\ run (forward no_such_file canned_model
            "photo.png" (Some "What is in the picture?"))
     = (Raised (ConversionError "No such file: photo.png"),
        [ConvertCall "photo.png"])
  /\ Raised (A := string) (ConversionError "No such file: photo.png")
     <> Raised (Exception image_error).
Proof.
  split; [reflexivity|]. split; [reflexivity|discriminate].
Qed.

(** [archive.zip.png]: the image rejection wins. *)
Lemma image_test_precedes_archive_test_example :
  is_archive "archive.zip.png" = true
  /\ is_image "archive.zip.png" = true
  /\ run (forward (converter_of q3_report) canned_model "archive.zip.png" None)
     = (Raised (Exception image_error), [ConvertCall "archive.zip.png"])
  /\ run (forward_initial_exam_mode (converter_of q3_report) canned_model
            "archive.zip.png" None)
     = (Raised (Exception image_error), [ConvertCall "archive.zip.png"]).
Proof.
  split; [reflexivity|]. split; [reflexivity|].
  pose proof (image_test_precedes_archive_test
                (converter_of q3_report) canned_model
                "archive.zip.png" None q3_report eq_refl eq_refl eq_refl)
    as [[E1 _] [E2 _]].
  split; assumption.
Defined.

(** [not.zipped.txt] counts as an archive: the text comes back although a
    question is supplied. *)
Lemma archive_returns_text_not_zipped :
  is_archive "not.zipped.txt" = true
  /\ is_image "not.zipped.txt" = false
  /\ run (forward (converter_of q3_report) canned_model
            "not.zipped.txt" (Some "summarize"))
     = (Returned "Revenue grew by 4% in the third quarter.",
        [ConvertCall "not.zipped.txt"]).
Proof.
  split; [reflexivity|]. split; [reflexivity|].
  exact (proj1 (proj2 (archive_returns_text (converter_of q3_report) canned_model
                         "not.zipped.txt" (Some "summarize") eq_refl)
                  q3_report eq_refl eq_refl)).
Defined.

(** C3 as stated fails: [archive.zip.png] contains [.zip], the conversion
    succeeds, and the call raises instead of returning the text. *)
Lemma archive_with_image_suffix_raises :
  is_archive "archive.zip.png" = true
  /\ run (forward (converter_of q3_report) canned_model
            "archive.zip.png" (Some "summarize"))
     = (Raised (Exception image_error), [ConvertCall "archive.zip.png"])
  /\ run (forward_initial_exam_mode (converter_of q3_report) canned_model
            "archive.zip.png" (Some "summarize"))
     = (Raised (Exception image_error), [ConvertCall "archive.zip.png"])
  /\ fst (run (forward (converter_of q3_report) canned_model
                 "archive.zip.png" (Some "summarize")))
     <> Returned (text_content q3_report).
Proof.
  split; [reflexivity|]. split; [reflexivity|]. split; [reflexivity|].
  discriminate.
Qed.

(** [report.pdf] without a question: the text comes back. *)
Lemma no_question_returns_text_report :
  supplied None = false
  /\ is_image "report.pdf" = false
  /\ run (forward (converter_of q3_report) canned_model "report.pdf" None)
     = (Returned "Revenue grew by 4% in the third quarter.",
        [ConvertCall "report.pdf"]).
Proof.
  split; [reflexivity|]. split; [reflexivity|].
  exact (proj1 (proj1 (proj2 (no_question_returns_text
                                (converter_of q3_report) canned_model
                                "report.pdf" None eq_refl))
                  q3_report eq_refl eq_refl)).
Defined.

(** C4 as stated fails: [photo.png] without a question, after a conversion
    that succeeded, raises instead of returning the text. *)
Lemma no_question_on_image_raises :
  supplied None = false
  /\ run (forward (converter_of q3_report) canned_model "photo.png" None)
     = (Raised (Exception image_error), [ConvertCall "photo.png"])
  /\ run (forward_initial_exam_mode (converter_of q3_report) canned_model
            "photo.png" None)
     = (Raised (Exception image_error), [ConvertCall "photo.png"])
  /\ fst (run (forward (converter_of q3_report) canned_model "photo.png" None))
     <> Returned (text_content q3_report).
Proof.
  split; [reflexivity|]. split; [reflexivity|]. split; [reflexivity|].
  discriminate.
Qed.

(** [holiday.jpeg] with a question goes to the model. *)
Lemma jpeg_gif_not_rejected_holiday :
  PyStr.endswith "holiday.jpeg" ".jpeg" = true
  /\ is_image "holiday.jpeg" = false
  /\ is_archive "holiday.jpeg" = false
  /\ exists standard exam,
       run (forward (converter_of q3_report) canned_model
              "holiday.jpeg" (Some "Who is on it?"))
       = (Returned "4%", [ConvertCall "holiday.jpeg"; ModelCall standard])
       /\ run (forward_initial_exam_mode (converter_of q3_report) canned_model
                 "holiday.jpeg" (Some "Who is on it?"))
       = (Returned "4%", [ConvertCall "holiday.jpeg"; ModelCall exam]).
Proof.
  split; [reflexivity|]. split; [reflexivity|]. split; [reflexivity|].
  exact (proj2 (proj2 (proj2 (proj2 (proj2
           (jpeg_gif_not_rejected (converter_of q3_report) canned_model
              "holiday.jpeg" (Some "Who is on it?") (or_introl eq_refl)))))
           q3_report eq_refl) eq_refl eq_refl).
Defined.

(** C8 as stated fails: [photos.zip.jpeg] ends in [.jpeg] and comes with a
    question, yet the model is not called: the path contains [.zip], so the
    converted text is returned. *)
Lemma jpeg_in_archive_skips_model :
  PyStr.endswith "photos.zip.jpeg" ".jpeg" = true
  /\ supplied (Some "What is in the archive?") = true
  /\ run (forward (converter_of q3_report) canned_model
            "photos.zip.jpeg" (Some "What is in the archive?"))
     = (Returned (text_content q3_report), [ConvertCall "photos.zip.jpeg"])
  /\ run (forward_initial_exam_mode (converter_of q3_report) canned_model
            "photos.zip.jpeg" (Some "What is in the archive?"))
     = (Returned (text_content q3_report), [ConvertCall "photos.zip.jpeg"])
  /\ model_calls
       (snd (run (forward (converter_of q3_report) canned_model
                    "photos.zip.jpeg" (Some "What is in the archive?")))) = [].
Proof.
  split; [reflexivity|]. split; [reflexivity|]. split; [reflexivity|].
  split; reflexivity.
Qed.

(** [archive.zip] with a question: the two entry points do the same. *)
Lemma entry_points_agree_archive :
  model_calls
    (snd (run (forward (converter_of q3_report) canned_model
                 "archive.zip" (Some "summarize")))) = []
  /\ run (forward (converter_of q3_report) canned_model
            "archive.zip" (Some "summarize"))
     = run (forward_initial_exam_mode (converter_of q3_report) canned_model
              "archive.zip" (Some "summarize")).
Proof.
  split; [reflexivity|].
  exact (proj1 (proj2 (proj2 (entry_points_agree
                                (converter_of q3_report) canned_model
                                "archive.zip" (Some "summarize"))))
           eq_refl).
Defined.

(** C6 as stated fails: the two methods do not have the same signature. A
    call on [report.pdf] that leaves the question out returns the converted
    text from [forward] and is refused by [forward_initial_exam_mode]
    before anything is converted. *)
Lemma entry_points_differ_without_question :
  call_forward (converter_of q3_report) canned_model "report.pdf" LeftOut
  = Ran (Returned "Revenue grew by 4% in the third quarter.",
         [ConvertCall "report.pdf"])
  /\ call_forward_initial_exam_mode (converter_of q3_report) canned_model
       "report.pdf" LeftOut
     = TypeError "question"
  /\ call_forward (converter_of q3_report) canned_model "report.pdf" LeftOut
     <> call_forward_initial_exam_mode (converter_of q3_report) canned_model
          "report.pdf" LeftOut.
Proof.
  split; [reflexivity|]. split; [reflexivity|]. discriminate.
Qed.



(** A report of 41 characters is forwarded whole, after its title. *)
Lemma prompt_carries_title_and_prefix_report :
  is_image "report.pdf" = false
  /\ is_archive "report.pdf" = false
  /\ exists ask,
       model_calls
         (snd (run (forward_initial_exam_mode (converter_of q3_report) canned_model
                      "report.pdf" (Some "What is the revenue?"))))
       = [[ mkMessage SYSTEM
              ("Here is a file:" ++ String "010" "### " ++ "Q3 Report"
               ++ String "010" (String "010" "")
               ++ PyStr.take (Z.to_N text_limit)
                    "Revenue grew by 4% in the third quarter.");
            ask ]].
Proof.
  split; [reflexivity|]. split; [reflexivity|].
  refine (proj1 (proj2 (proj2 (prompt_carries_title_and_prefix
            (converter_of q3_report) canned_model
            "report.pdf" "What is the revenue?" q3_report
            eq_refl eq_refl eq_refl _)))).
  discriminate.
Defined.

(** Notes without a title: the prompt says None, and a failure of the model
    is what the caller gets. *)
Lemma missing_title_prints_None_notes :
  title untitled_notes = None
  /\ exists ask,
       run (forward_initial_exam_mode (converter_of untitled_notes) model_down
              "notes.txt" (Some "What should I buy?"))
       = (Raised (ModelCallError "service unavailable"),
          [ConvertCall "notes.txt";
           ModelCall
             [ mkMessage SYSTEM
                 ("Here is a file:" ++ String "010" "### " ++ "None"
                  ++ String "010" (String "010" "")
                  ++ PyStr.slice_to "Buy milk." text_limit);
               ask ]]).
Proof.
  split; [reflexivity|].
  refine (proj2 (proj2 (missing_title_prints_None
            (converter_of untitled_notes) model_down
            "notes.txt" "What should I buy?" untitled_notes
            eq_refl eq_refl eq_refl eq_refl _))).
  discriminate.
Defined.

End Examples.

(** ** The dataset rows *)

Module DatasetFacts.
Import Dataset.

Lemma getitem_missing (row : Row) (key : string) :
  ~ In key (map fst row) -> getitem row key = inl (KeyError key).
Proof.
  induction row as [|[k v] row IH]; simpl; intro Hnot.
  - reflexivity.
  - destruct (String.eqb_spec k key) as [->|Hk].
    + exfalso. apply Hnot. now left.
    + apply IH. intro Hin. apply Hnot. now right.
Qed.

Lemma getitem_present (row : Row) (key : string) :
  In key (map fst row) -> exists value, getitem row key = inr value.
Proof.
  induction row as [|[k v] row IH]; simpl; intro Hin.
  - contradiction.
  - destruct (String.eqb_spec k key) as [->|Hk].
    + now exists v.
    + destruct Hin as [Hin|Hin]; [contradiction|]. now apply IH.
Qed.

Lemma getitem_setitem_same (row : Row) (key value : string) :
  getitem (setitem row key value) key = inr value.
Proof.
  induction row as [|[k v] row IH]; simpl.
  - now rewrite String.eqb_refl.
  - destruct (String.eqb_spec k key) as [->|Hk]; simpl.
    + now rewrite String.eqb_refl.
    + destruct (String.eqb_spec k key); [contradiction|]. exact IH.
Qed.

Lemma getitem_setitem_other (row : Row) (key value other : string) :
  other <> key ->
  getitem (setitem row key value) other = getitem row other.
Proof.
  intro Hneq. induction row as [|[k v] row IH]; simpl.
  - destruct (String.eqb_spec key other) as [<-|_]; [contradiction|reflexivity].
  - destruct (String.eqb_spec k key) as [->|Hk]; simpl.
    + destruct (String.eqb_spec key other) as [<-|_];
        [contradiction|reflexivity].
    + now rewrite IH.
Qed.

(** Writing a column the row has keeps the columns and their order. *)
Lemma columns_setitem (row : Row) (key value : string) :
  In key (map fst row) ->
  map fst (setitem row key value) = map fst row.
Proof.
  induction row as [|[k v] row IH]; simpl; intro Hin.
  - contradiction.
  - destruct (String.eqb_spec k key) as [->|Hk]; simpl.
    + reflexivity.
    + destruct Hin as [Hin|Hin]; [contradiction|]. now rewrite IH.
Qed.

Lemma getitem_columns (row : Row) (key value : string) :
  getitem row key = inr value -> In key (map fst row).
Proof.
  induction row as [|[k v] row IH]; simpl; intro H.
  - discriminate.
  - destruct (String.eqb_spec k key) as [->|Hk].
    + now left.
    + right. now apply IH.
Qed.

Lemma len_0_iff (s : string) : PyStr.len s = 0%N <-> s = "".
Proof.
  destruct s as [|c s]; simpl; split; intro H; try reflexivity;
    try discriminate; lia.
Qed.

(** What the function does to a row whose file name is [name]. *)
Lemma preprocess_run (row : Row) (name : string) :
  getitem row "file_name" = inr name ->
  preprocess_file_paths row
  = inr (if (0 <? PyStr.len name)%N
         then setitem row "file_name" ("data/gaia/" ++ SET ++ "/" ++ name)
         else row).
Proof.
  intro H. unfold preprocess_file_paths. rewrite H.
  now destruct (0 <? PyStr.len name)%N.
Qed.

(** X1. The function raises [KeyError] for the column [file_name] exactly
    when the row has no such column. *)
Theorem preprocess_needs_file_name (row : Row) :
  preprocess_file_paths row = inl (KeyError "file_name")
  <-> ~ In "file_name" (map fst row).
Proof.
  split; intro H.
  - intro Hin. destruct (getitem_present row "file_name" Hin) as [name Hn].
    rewrite (preprocess_run row name Hn) in H. discriminate.
  - unfold preprocess_file_paths. now rewrite getitem_missing.
Qed.

(** X2. On a row whose file name is [name], the function returns a row with
    the same columns in the same order and the same value in every other
    column; its file name is [name] when [name] is empty and the directory
    [data/gaia/validation/] followed by [name] when it is not. *)
Theorem preprocess_prefixes_file_name (row : Row) (name : string) :
  getitem row "file_name" = inr name ->
  exists row',
    preprocess_file_paths row = inr row'
    /\ map fst row' = map fst row
    /\ (forall column, column <> "file_name" ->
        getitem row' column = getitem row column)
    /\ getitem row' "file_name"
       = inr (match name with
              | EmptyString => ""
              | String _ _ => "data/gaia/validation/" ++ name
              end).
Proof.
  intro H. rewrite (preprocess_run row name H).
  destruct name as [|c name].
  - exists row. repeat split. exact H.
  - replace (0 <? PyStr.len (String c name))%N with true
      by (symmetry; apply N.ltb_lt; simpl; lia).
    eexists. split; [reflexivity|]. split; [|split].
    + apply columns_setitem. now apply getitem_columns with (value := String c name).
    + intros column Hc. now apply getitem_setitem_other.
    + apply getitem_setitem_same.
Qed.

(** X3. The function is not idempotent: on a row with a file name that is
    not empty, a second pass puts the directory in front once more, so the
    file name grows by 21 characters at every pass. *)
Theorem preprocess_twice (row : Row) (name : string) :
  getitem row "file_name" = inr name ->
  name <> "" ->
  exists once twice,
    preprocess_file_paths row = inr once
    /\ preprocess_file_paths once = inr twice
    /\ getitem once "file_name" = inr ("data/gaia/validation/" ++ name)
    /\ getitem twice "file_name"
       = inr ("data/gaia/validation/" ++ "data/gaia/validation/" ++ name)
    /\ twice <> once
    /\ PyStr.len ("data/gaia/validation/" ++ name) = (21 + PyStr.len name)%N.
Proof.
  intros H Hne.
  destruct name as [|c name]; [congruence|].
  rewrite (preprocess_run row _ H).
  replace (0 <? PyStr.len (String c name))%N with true
    by (symmetry; apply N.ltb_lt; simpl; lia).
  set (once := setitem row "file_name" ("data/gaia/" ++ SET ++ "/" ++ String c name)).
  set (twice := setitem once "file_name"
                  ("data/gaia/" ++ SET ++ "/"
                   ++ "data/gaia/validation/" ++ String c name)).
  assert (H1 : getitem once "file_name"
               = inr ("data/gaia/validation/" ++ String c name))
    by apply getitem_setitem_same.
  assert (H2 : getitem twice "file_name"
               = inr ("data/gaia/validation/" ++ "data/gaia/validation/"
                      ++ String c name))
    by apply getitem_setitem_same.
  exists once, twice. split; [reflexivity|]. split; [|split; [|split; [|split]]].
  - rewrite (preprocess_run once _ H1).
    replace (0 <? PyStr.len ("data/gaia/validation/" ++ String c name))%N
      with true
      by (symmetry; apply N.ltb_lt; rewrite PyStrFacts.len_app;
          cbn [PyStr.len]; lia).
    reflexivity.
  - exact H1.
  - exact H2.
  - intro E. rewrite E, H1 in H2.
    apply (f_equal (fun r : LookupError + string =>
                      match r with
                      | inr s => PyStr.len s
                      | inl _ => 0%N
                      end)) in H2.
    cbv beta iota in H2.
    rewrite !PyStrFacts.len_app in H2. cbn [PyStr.len] in H2. lia.
  - rewrite PyStrFacts.len_app. reflexivity.
Qed.

End DatasetFacts.

(** ** More on the two path tests *)

Module PathTestFacts.
Import PyStr PyStrFacts.

Lemma drop_app_add (p s : string) (k : N) :
  drop (len p + k) (p ++ s) = drop k s.
Proof.
  induction p as [|c p IH].
  - reflexivity.
  - cbn [len append]. rewrite N.add_succ_l, drop_succ. exact IH.
Qed.

(** The last four characters of [p ++ s] are those of [s] when [s] has
    four characters or more. *)
Lemma slice4_app_long (p s : string) :
  (4 <= len s)%N -> slice_from (p ++ s) (-4) = slice_from s (-4).
Proof.
  intro H. unfold slice_from. change (-4)%Z with (- Z.of_N 4)%Z.
  rewrite (clamp_neg (p ++ s) 4), (clamp_neg s 4) by lia.
  rewrite len_app.
  replace (len p + len s - 4)%N with (len p + (len s - 4))%N by lia.
  apply drop_app_add.
Qed.

Lemma len_slice_from_le (s : string) (i : Z) :
  (len (slice_from s i) <= len s)%N.
Proof.
  destruct (slice_from_is_suffix s i) as [p Hp].
  apply (f_equal len) in Hp. rewrite len_app in Hp. lia.
Qed.

Lemma eqb_len_neq (s t : string) : len s <> len t -> String.eqb s t = false.
Proof.
  intro H. apply String.eqb_neq. intros ->. now apply H.
Qed.

(** A path of fewer than four characters does not pass the image test. *)
Lemma short_not_image (s : string) :
  (len s < 4)%N -> in_list (slice_from s (-4)) [".png"; ".jpg"] = false.
Proof.
  intro H. pose proof (len_slice_from_le s (-4)) as Hle.
  unfold in_list. cbn [existsb].
  rewrite !eqb_len_neq; [reflexivity| |]; cbn [len]; lia.
Qed.

(** Occurrences of a string that starts with [c] are not found earlier by
    putting in front a string without [c]. *)
Lemma contains_after (c : ascii) (sub p s : string) :
  lacks c p = true ->
  contains (String c sub) (p ++ s) = contains (String c sub) s.
Proof.
  induction p as [|d p IH]; cbn [lacks append]; intro H.
  - reflexivity.
  - apply andb_true_iff in H. destruct H as [Hd Hp].
    cbn [contains]. rewrite (IH Hp).
    replace (String.prefix (String c sub) (String d (p ++ s))) with false.
    + reflexivity.
    + simpl. destruct (ascii_dec c d) as [->|Hcd]; [|reflexivity].
      now rewrite Ascii.eqb_refl in Hd.
Qed.

(** The directory put in front of a file name changes neither test. *)
Lemma tests_after_directory (name : string) :
  in_list (slice_from ("data/gaia/validation/" ++ name) (-4)) [".png"; ".jpg"]
  = in_list (slice_from name (-4)) [".png"; ".jpg"]
  /\ contains ".zip" ("data/gaia/validation/" ++ name) = contains ".zip" name.
Proof.
  split.
  - destruct (N.lt_ge_cases (len name) 4) as [Hshort|Hlong].
    + rewrite (short_not_image name Hshort).
      destruct name as [|a [|b [|c [|d rest]]]].
      * reflexivity.
      * reflexivity.
      * reflexivity.
      * reflexivity.
      * cbn [len] in Hshort. lia.
    + now rewrite slice4_app_long.
  - now apply contains_after.
Qed.

End PathTestFacts.

(** ** Which way a call goes *)

Section Dispatch.

Variable md_converter : string -> string + ConversionResult.
Variable websurfer_model : list Message -> string + string.

Local Abbreviation forward :=
  (TextInspectorTool.forward md_converter websurfer_model).
Local Abbreviation forward_initial_exam_mode :=
  (TextInspectorTool.forward_initial_exam_mode md_converter websurfer_model).

(** The four ways a run [r] on [file_path] and [question] can go. *)
Local Abbreviation goes_one_of_four_ways r file_path question :=
  ((exists detail,
       md_converter file_path = inl detail
       /\ r = (Raised (ConversionError detail), [ConvertCall file_path]))
   \/ (exists result,
       md_converter file_path = inr result
       /\ is_image file_path = true
       /\ r = (Raised (Exception TextInspectorTool.image_error),
               [ConvertCall file_path]))
   \/ (exists result,
       md_converter file_path = inr result
       /\ is_image file_path = false
       /\ (is_archive file_path = true \/ supplied question = false)
       /\ r = (Returned (text_content result), [ConvertCall file_path]))
   \/ (exists result messages,
       md_converter file_path = inr result
       /\ is_image file_path = false
       /\ is_archive file_path = false
       /\ supplied question = true
       /\ r = (answer_of (websurfer_model messages),
               [ConvertCall file_path; ModelCall messages]))).

Lemma forward_goes (file_path : string) (question : option string) :
  goes_one_of_four_ways (run (forward file_path question)) file_path question.
Proof.
  destruct (md_converter file_path) as [detail|result] eqn:H.
  { left. exists detail. split; [reflexivity|].
    apply (run_conversion_failed md_converter websurfer_model
             file_path question detail H). }
  destruct (is_image file_path) eqn:Himg.
  { right. left. exists result. split; [reflexivity|]. split; [reflexivity|].
    apply (run_image md_converter websurfer_model
             file_path question result H Himg). }
  destruct (is_archive file_path) eqn:Hzip.
  { right. right. left. exists result. split; [reflexivity|].
    split; [reflexivity|]. split; [now left|].
    apply (run_archive md_converter websurfer_model
             file_path question result H Himg Hzip). }
  destruct (supplied question) eqn:Hq.
  - right. right. right. destruct question as [[|c q]|]; try discriminate.
    assert (Hne : String c q <> "") by discriminate.
    exists result. eexists. split; [reflexivity|]. split; [reflexivity|].
    split; [reflexivity|]. split; [reflexivity|].
    exact (run_forward_question md_converter websurfer_model
             file_path (String c q) result H Himg Hzip Hne).
  - right. right. left. exists result. split; [reflexivity|].
    split; [reflexivity|]. split; [now right|].
    apply (run_no_question md_converter websurfer_model
             file_path question result H Himg Hq).
Qed.

Lemma forward_initial_exam_mode_goes
    (file_path : string) (question : option string) :
  goes_one_of_four_ways (run (forward_initial_exam_mode file_path question))
    file_path question.
Proof.
  destruct (md_converter file_path) as [detail|result] eqn:H.
  { left. exists detail. split; [reflexivity|].
    apply (run_conversion_failed md_converter websurfer_model
             file_path question detail H). }
  destruct (is_image file_path) eqn:Himg.
  { right. left. exists result. split; [reflexivity|]. split; [reflexivity|].
    apply (run_image md_converter websurfer_model
             file_path question result H Himg). }
  destruct (is_archive file_path) eqn:Hzip.
  { right. right. left. exists result. split; [reflexivity|].
    split; [reflexivity|]. split; [now left|].
    apply (run_archive md_converter websurfer_model
             file_path question result H Himg Hzip). }
  destruct (supplied question) eqn:Hq.
  - right. right. right. destruct question as [[|c q]|]; try discriminate.
    assert (Hne : String c q <> "") by discriminate.
    exists result. eexists. split; [reflexivity|]. split; [reflexivity|].
    split; [reflexivity|]. split; [reflexivity|].
    exact (run_exam_question md_converter websurfer_model
             file_path (String c q) result H Himg Hzip Hne).
  - right. right. left. exists result. split; [reflexivity|].
    split; [reflexivity|]. split; [now right|].
    apply (run_no_question md_converter websurfer_model
             file_path question result H Himg Hq).
Qed.

Ltac by_cases file_path question :=
  split;
  [ destruct (forward_goes file_path question)
      as [(detail & Hc & E)
         |[(result & Hc & Himg & E)
          |[(result & Hc & Himg & Hquiet & E)
           |(result & messages & Hc & Himg & Hzip & Hq & E)]]]
  | destruct (forward_initial_exam_mode_goes file_path question)
      as [(detail & Hc & E)
         |[(result & Hc & Himg & E)
          |[(result & Hc & Himg & Hquiet & E)
           |(result & messages & Hc & Himg & Hzip & Hq & E)]]] ];
  match goal with
  | Hrun : run _ = _ |- _ => rewrite Hrun
  end;
  cbn [fst snd model_calls].

(** A path that is not an image path is never rejected as one. *)
Lemma not_image_not_rejected (file_path : string) (question : option string) :
  is_image file_path = false ->
  fst (run (forward file_path question))
  <> Raised (Exception TextInspectorTool.image_error)
  /\ fst (run (forward_initial_exam_mode file_path question))
     <> Raised (Exception TextInspectorTool.image_error).
Proof.
  intro Hno.
  by_cases file_path question; try discriminate; try congruence;
    destruct (websurfer_model messages); discriminate.
Qed.

(** X5. The model is called exactly when the conversion succeeded, the path
    is neither an image nor an archive, and a question is supplied; this is
    so at both entry points. *)
Theorem model_called_iff (file_path : string) (question : option string) :
  (model_calls (snd (run (forward file_path question))) <> []
   <-> (exists result, md_converter file_path = inr result)
       /\ is_image file_path = false
       /\ is_archive file_path = false
       /\ supplied question = true)
  /\ (model_calls (snd (run (forward_initial_exam_mode file_path question)))
      <> []
      <-> (exists result, md_converter file_path = inr result)
          /\ is_image file_path = false
          /\ is_archive file_path = false
          /\ supplied question = true).
Proof.
  by_cases file_path question;
    (split;
     [ intro Hcall; try (now exfalso; apply Hcall);
       (split; [now exists result|now repeat split])
     | intros ([r Hr] & Hi & Hz & Hs); try discriminate; try congruence;
       try (destruct Hquiet; congruence) ]).
Qed.

(** X6. A call raises the image-rejection exception exactly when the
    conversion succeeded and the path ends in [.png] or [.jpg]; this is so
    at both entry points. *)
Theorem image_rejected_iff (file_path : string) (question : option string) :
  (fst (run (forward file_path question))
   = Raised (Exception TextInspectorTool.image_error)
   <-> (exists result, md_converter file_path = inr result)
       /\ is_image file_path = true)
  /\ (fst (run (forward_initial_exam_mode file_path question))
      = Raised (Exception TextInspectorTool.image_error)
      <-> (exists result, md_converter file_path = inr result)
          /\ is_image file_path = true).
Proof.
  by_cases file_path question;
    (split;
     [ intro Hraise; try discriminate;
       try (destruct (websurfer_model messages); discriminate);
       (split; [now exists result|assumption])
     | intros ([r Hr] & Hi); try reflexivity; congruence ]).
Qed.

(** X7. A call returns the string [s] without having called the model
    exactly when the conversion succeeded with [s] as its text_content, the
    path is not an image, and the path is an archive or no question is
    supplied; this is so at both entry points. *)
Theorem text_returned_iff
    (file_path : string) (question : option string) (s : string) :
  (run (forward file_path question) = (Returned s, [ConvertCall file_path])
   <-> exists result,
         md_converter file_path = inr result
         /\ s = text_content result
         /\ is_image file_path = false
         /\ (is_archive file_path = true \/ supplied question = false))
  /\ (run (forward_initial_exam_mode file_path question)
      = (Returned s, [ConvertCall file_path])
      <-> exists result,
            md_converter file_path = inr result
            /\ s = text_content result
            /\ is_image file_path = false
            /\ (is_archive file_path = true \/ supplied question = false)).
Proof.
  by_cases file_path question;
    (split;
     [ intro Hret; try discriminate;
       exists result; repeat split; try assumption; congruence
     | intros (r & Hr & Hs & Hi & Hz); try congruence;
       try (destruct Hz; congruence) ]).
Qed.

(** X8. Whenever a prompt reaches the model, it does so once, after the one
    conversion call, and the caller gets what the model said about that
    prompt: its answer as it is, or its failure. There is no second try. *)
Theorem model_outcome_passed_on
    (file_path : string) (question : option string) (messages : list Message) :
  (In messages (model_calls (snd (run (forward file_path question)))) ->
   snd (run (forward file_path question))
   = [ConvertCall file_path; ModelCall messages]
   /\ (forall answer, websurfer_model messages = inr answer ->
       fst (run (forward file_path question)) = Returned answer)
   /\ (forall detail, websurfer_model messages = inl detail ->
       fst (run (forward file_path question))
       = Raised (ModelCallError detail)))
  /\ (In messages
        (model_calls (snd (run (forward_initial_exam_mode file_path question)))) ->
      snd (run (forward_initial_exam_mode file_path question))
      = [ConvertCall file_path; ModelCall messages]
      /\ (forall answer, websurfer_model messages = inr answer ->
          fst (run (forward_initial_exam_mode file_path question))
          = Returned answer)
      /\ (forall detail, websurfer_model messages = inl detail ->
          fst (run (forward_initial_exam_mode file_path question))
          = Raised (ModelCallError detail))).
Proof.
  split; intro Hin.
  - destruct (forward_goes file_path question)
      as [(detail & Hc & E)
         |[(result & Hc & Himg & E)
          |[(result & Hc & Himg & Hquiet & E)
           |(result & sent & Hc & Himg & Hzip & Hq & E)]]];
      rewrite E in Hin |- *; cbn [fst snd model_calls In] in Hin |- *;
      try contradiction.
    destruct Hin as [->|[]].
    split; [reflexivity|]. split; intros x Hx; now rewrite Hx.
  - destruct (forward_initial_exam_mode_goes file_path question)
      as [(detail & Hc & E)
         |[(result & Hc & Himg & E)
          |[(result & Hc & Himg & Hquiet & E)
           |(result & sent & Hc & Himg & Hzip & Hq & E)]]];
      rewrite E in Hin |- *; cbn [fst snd model_calls In] in Hin |- *;
      try contradiction.
    destruct Hin as [->|[]].
    split; [reflexivity|]. split; intros x Hx; now rewrite Hx.
Qed.

(** X10. The image test compares the last four characters as they are: a
    path of fewer than four characters (the empty path too) and a path
    ending in [.PNG] or [.JPG] are not taken for images, and no call on
    them raises the image-rejection exception. *)
Theorem image_test_edge_inputs (file_path : string) (question : option string) :
  (PyStr.len file_path < 4)%N
  \/ PyStr.endswith file_path ".PNG" = true
  \/ PyStr.endswith file_path ".JPG" = true ->
  PyStr.in_list (PyStr.slice_from file_path (-4)) [".png"; ".jpg"] = false
  /\ fst (run (forward file_path question))
     <> Raised (Exception TextInspectorTool.image_error)
  /\ fst (run (forward_initial_exam_mode file_path question))
     <> Raised (Exception TextInspectorTool.image_error).
Proof.
  intro Hedge.
  assert (Htest : PyStr.in_list (PyStr.slice_from file_path (-4))
                    [".png"; ".jpg"] = false).
  { destruct Hedge as [Hshort|[H|H]].
    - now apply PathTestFacts.short_not_image.
    - apply PyStrFacts.endswith_spec in H. destruct H as [p ->].
      change (-4)%Z with (- Z.of_N (PyStr.len ".PNG"))%Z.
      rewrite PyStrFacts.slice_from_suffix by reflexivity. reflexivity.
    - apply PyStrFacts.endswith_spec in H. destruct H as [p ->].
      change (-4)%Z with (- Z.of_N (PyStr.len ".JPG"))%Z.
      rewrite PyStrFacts.slice_from_suffix by reflexivity. reflexivity. }
  assert (Himg : is_image file_path = false)
    by (now rewrite <- image_test_is_image).
  split; [exact Htest|]. now apply not_image_not_rejected.
Qed.

(** X9. The size of the prompt, for a supplied question on a path that is
    neither an image nor an archive: only the text_content is cut, at
    [text_limit] = 70000 characters; the title and the question go in whole,
    the question twice in the prompt of [forward]. *)
Theorem prompt_sizes
    (file_path question : string) (result : ConversionResult) :
  md_converter file_path = inr result ->
  is_image file_path = false ->
  is_archive file_path = false ->
  question <> "" ->
  exists standard exam,
    model_calls (snd (run (forward file_path (Some question)))) = [standard]
    /\ model_calls (snd (run (forward_initial_exam_mode file_path (Some question))))
       = [exam]
    /\ prompt_size standard
       = (280 + 2 * PyStr.len question
          + PyStr.len (PyStr.str (title result))
          + N.min 70000 (PyStr.len (text_content result)))%N
    /\ prompt_size exam
       = (22 + PyStr.len question
          + PyStr.len (PyStr.str (title result))
          + N.min 70000 (PyStr.len (text_content result)))%N
    /\ (prompt_size exam <= prompt_size standard)%N
    /\ (prompt_size standard
        <= 70280 + 2 * PyStr.len question
           + PyStr.len (PyStr.str (title result)))%N.
Proof.
  intros H Himg Hzip Hq.
  rewrite (run_forward_question md_converter websurfer_model
             file_path question result H Himg Hzip Hq).
  rewrite (run_exam_question md_converter websurfer_model
             file_path question result H Himg Hzip Hq).
  cbn [snd model_calls]. eexists. eexists.
  split; [reflexivity|]. split; [reflexivity|].
  cbn [prompt_size fold_right content].
  rewrite !PyStrFacts.len_app.
  rewrite (PyStrFacts.len_slice_to _ _ PyStrFacts.text_limit_nonneg).
  change (Z.to_N text_limit) with 70000%N.
  cbn [PyStr.len]. lia.
Qed.

(** X11. The path is for the converter only: on two paths that are neither
    images nor archives and that convert to the same result, a call makes
    the same prompt and has the same outcome. *)
Theorem prompt_independent_of_path
    (path_a path_b : string) (question : option string)
    (result : ConversionResult) :
  md_converter path_a = inr result ->
  md_converter path_b = inr result ->
  is_image path_a = false -> is_archive path_a = false ->
  is_image path_b = false -> is_archive path_b = false ->
  (model_calls (snd (run (forward path_a question)))
   = model_calls (snd (run (forward path_b question)))
   /\ fst (run (forward path_a question))
      = fst (run (forward path_b question)))
  /\ (model_calls (snd (run (forward_initial_exam_mode path_a question)))
      = model_calls (snd (run (forward_initial_exam_mode path_b question)))
      /\ fst (run (forward_initial_exam_mode path_a question))
         = fst (run (forward_initial_exam_mode path_b question))).
Proof.
  intros Ha Hb Hia Hza Hib Hzb.
  destruct (supplied question) eqn:Hq.
  - destruct question as [[|c q]|]; try discriminate.
    assert (Hne : String c q <> "") by discriminate.
    rewrite (run_forward_question md_converter websurfer_model
               path_a _ result Ha Hia Hza Hne).
    rewrite (run_forward_question md_converter websurfer_model
               path_b _ result Hb Hib Hzb Hne).
    rewrite (run_exam_question md_converter websurfer_model
               path_a _ result Ha Hia Hza Hne).
    rewrite (run_exam_question md_converter websurfer_model
               path_b _ result Hb Hib Hzb Hne).
    now repeat split.
  - destruct (run_no_question md_converter websurfer_model
                path_a question result Ha Hia Hq) as [A1 A2].
    destruct (run_no_question md_converter websurfer_model
                path_b question result Hb Hib Hq) as [B1 B2].
    rewrite A1, A2, B1, B2. now repeat split.
Qed.

End Dispatch.

(** ** The dataset rows and the tool *)

Module DatasetAndTool.
Import Dataset.

(** X4. Preprocessing a row does not change what the tool takes its file
    for: the new file name is an image path exactly when the old one is,
    and an archive path exactly when the old one is. *)
Theorem preprocess_keeps_file_kind (row : Row) (name : string) :
  getitem row "file_name" = inr name ->
  exists row' path,
    preprocess_file_paths row = inr row'
    /\ getitem row' "file_name" = inr path
    /\ PyStr.in_list (PyStr.slice_from path (-4)) [".png"; ".jpg"]
       = PyStr.in_list (PyStr.slice_from name (-4)) [".png"; ".jpg"]
    /\ is_image path = is_image name
    /\ is_archive path = is_archive name.
Proof.
  intro H. rewrite (DatasetFacts.preprocess_run row name H).
  destruct (0 <? PyStr.len name)%N.
  - exists (setitem row "file_name" ("data/gaia/" ++ SET ++ "/" ++ name)).
    exists ("data/gaia/validation/" ++ name).
    split; [reflexivity|]. split; [apply DatasetFacts.getitem_setitem_same|].
    destruct (PathTestFacts.tests_after_directory name) as [Hi Hz].
    split; [exact Hi|]. split; [|exact Hz].
    unfold is_image. now rewrite <- !PyStrFacts.image_test.
  - exists row, name. now repeat split.
Qed.

End DatasetAndTool.

(** ** Further properties at concrete inputs *)

Module MoreExamples.
Import Fixtures Dataset.

Local Abbreviation forward := TextInspectorTool.forward.
Local Abbreviation forward_initial_exam_mode :=
  TextInspectorTool.forward_initial_exam_mode.
Local Abbreviation image_error := TextInspectorTool.image_error.

(** A row without the column. *)
Lemma preprocess_row_without_file_name :
  preprocess_file_paths [("task_id", "c61d22de"); ("question", "How many?")]
  = inl (KeyError "file_name").
Proof.
  apply (proj2 (DatasetFacts.preprocess_needs_file_name
                  [("task_id", "c61d22de"); ("question", "How many?")])).
  simpl. intros [H|[H|[]]]; discriminate.
Defined.

(** A row with a file. *)
Lemma preprocess_row_with_file :
  exists row',
    preprocess_file_paths
      [("task_id", "c61d22de"); ("file_name", "sheet.xlsx"); ("task", "2")]
    = inr row'
    /\ map fst row' = ["task_id"; "file_name"; "task"]
    /\ getitem row' "file_name" = inr "data/gaia/validation/sheet.xlsx".
Proof.
  destruct (DatasetFacts.preprocess_prefixes_file_name
              [("task_id", "c61d22de"); ("file_name", "sheet.xlsx"); ("task", "2")]
              "sheet.xlsx" eq_refl)
    as (row' & E & Hcols & _ & Hname).
  exists row'. split; [exact E|]. split; [exact Hcols|exact Hname].
Defined.

(** The same row, preprocessed twice. *)
Lemma preprocess_row_twice :
  exists once twice,
    preprocess_file_paths
      [("task_id", "c61d22de"); ("file_name", "sheet.xlsx"); ("task", "2")]
    = inr once
    /\ preprocess_file_paths once = inr twice
    /\ getitem twice "file_name"
       = inr "data/gaia/validation/data/gaia/validation/sheet.xlsx".
Proof.
  destruct (DatasetFacts.preprocess_twice
              [("task_id", "c61d22de"); ("file_name", "sheet.xlsx"); ("task", "2")]
              "sheet.xlsx" eq_refl)
    as (once & twice & E1 & E2 & _ & H2 & _).
  - discriminate.
  - exists once, twice. split; [exact E1|]. split; [exact E2|exact H2].
Defined.

(** An image stays an image. *)
Lemma preprocess_row_with_image :
  exists row' path,
    preprocess_file_paths [("file_name", "photo.png")] = inr row'
    /\ getitem row' "file_name" = inr path
    /\ is_image path = true.
Proof.
  destruct (DatasetAndTool.preprocess_keeps_file_kind
              [("file_name", "photo.png")] "photo.png" eq_refl)
    as (row' & path & E & Hname & _ & Hi & _).
  exists row', path. split; [exact E|]. split; [exact Hname|].
  rewrite Hi. reflexivity.
Defined.

(** A question about [report.pdf] reaches the model. *)
Lemma model_called_for_report :
  model_calls
    (snd (run (forward (converter_of q3_report) canned_model
                 "report.pdf" (Some "What is the revenue?")))) <> [].
Proof.
  apply (proj2 (proj1 (model_called_iff (converter_of q3_report) canned_model
                         "report.pdf" (Some "What is the revenue?")))).
  split; [now exists q3_report|]. now repeat split.
Defined.

(** [photo.png] is rejected once converted. *)
Lemma image_rejected_for_photo :
  fst (run (forward_initial_exam_mode (converter_of q3_report) canned_model
              "photo.png" None))
  = Raised (Exception image_error).
Proof.
  apply (proj2 (proj2 (image_rejected_iff (converter_of q3_report) canned_model
                         "photo.png" None))).
  split; [now exists q3_report|reflexivity].
Defined.

(** A returned text is the text of the conversion. *)
Lemma text_returned_for_archive :
  run (forward (converter_of q3_report) canned_model
         "archive.zip" (Some "summarize"))
  = (Returned "Revenue grew by 4% in the third quarter.",
     [ConvertCall "archive.zip"]).
Proof.
  apply (proj2 (proj1 (text_returned_iff (converter_of q3_report) canned_model
                         "archive.zip" (Some "summarize")
                         "Revenue grew by 4% in the third quarter."))).
  exists q3_report. split; [reflexivity|]. split; [reflexivity|].
  split; [reflexivity|]. now left.
Defined.

(** A model that is down: its failure is the outcome. *)
Lemma model_failure_passed_on :
  fst (run (forward_initial_exam_mode (converter_of untitled_notes) model_down
              "notes.txt" (Some "What should I buy?")))
  = Raised (ModelCallError "service unavailable").
Proof.
  refine (proj2 (proj2 (proj2 (model_outcome_passed_on
            (converter_of untitled_notes) model_down
            "notes.txt" (Some "What should I buy?")
            [ mkMessage SYSTEM
                ("Here is a file:" ++ String "010" "### " ++ "None"
                 ++ String "010" (String "010" "") ++ "Buy milk.");
              mkMessage USER "What should I buy?" ]) _))
            "service unavailable" eq_refl).
  left. reflexivity.
Defined.

(** The sizes of the two prompts for a report of 40 characters. *)
Lemma prompt_sizes_report :
  exists standard exam,
    model_calls
      (snd (run (forward (converter_of q3_report) canned_model
                   "report.pdf" (Some "What is the revenue?")))) = [standard]
    /\ model_calls
      (snd (run (forward_initial_exam_mode (converter_of q3_report) canned_model
                   "report.pdf" (Some "What is the revenue?")))) = [exam]
    /\ prompt_size standard = 369%N
    /\ prompt_size exam = 91%N.
Proof.
  destruct (prompt_sizes (converter_of q3_report) canned_model
              "report.pdf" "What is the revenue?" q3_report
              eq_refl eq_refl eq_refl)
    as (standard & exam & E1 & E2 & S1 & S2 & _).
  - discriminate.
  - exists standard, exam. split; [exact E1|]. split; [exact E2|].
    rewrite S1, S2. split; reflexivity.
Defined.

(** Capital letters in the extension. *)
Lemma upper_case_png_not_rejected :
  PyStr.endswith "photo.PNG" ".PNG" = true
  /\ fst (run (forward (converter_of q3_report) canned_model "photo.PNG" None))
     <> Raised (Exception image_error).
Proof.
  split; [reflexivity|].
  exact (proj1 (proj2 (image_test_edge_inputs
                         (converter_of q3_report) canned_model
                         "photo.PNG" None (or_intror (or_introl eq_refl))))).
Defined.

(** Two copies of one report. *)
Lemma same_prompt_for_two_copies :
  model_calls
    (snd (run (forward (converter_of q3_report) canned_model
                 "a/report.pdf" (Some "What is the revenue?"))))
  = model_calls
      (snd (run (forward (converter_of q3_report) canned_model
                   "b/report.docx" (Some "What is the revenue?")))).
Proof.
  exact (proj1 (proj1 (prompt_independent_of_path
                         (converter_of q3_report) canned_model
                         "a/report.pdf" "b/report.docx"
                         (Some "What is the revenue?") q3_report
                         eq_refl eq_refl eq_refl eq_refl eq_refl eq_refl))).
Defined.

End MoreExamples.
